(** * A shallow embedding of [src/main.js] (webgpu-rotating-cube)

    The program is a module script: a linear setup (lines 5-99), the
    per-frame callback [frame] (lines 111-148) and the first
    [requestAnimationFrame(frame)] (line 149).

    - JS numbers that come from the page (client sizes, the device pixel
      ratio) are rationals [Q]; their product is rounded to a double
      ([js_mul]); the canvas [width]/[height] attributes are integers [Z],
      written through the WebIDL [unsigned long] setter.
    - The matrix library (wgpu-matrix) and the floating point numbers it
      works on are external: they are the abstract types [F] and [Mat] with
      the operations of a [Mat4Lib].  The cube data of [/src/cube.js] is the
      [CubeData] record.
    - Every interaction with the host (navigator, DOM, WebGPU, matrix
      library, console) is a [Call], recorded in a trace.  During setup a
      host call may throw (the host oracle [host_throws]); nothing in the
      program catches. *)

From Stdlib Require Import ZArith QArith List String Bool Lia.
Import ListNotations.
Open Scope string_scope.
Open Scope list_scope.
Open Scope Z_scope.

(** ** External libraries *)

(** The operations of wgpu-matrix used by the program. *)
Record Mat4Lib (F Mat : Type) := {
  lit : Q -> F;                       (* number literal / integer as a number *)
  PI : F;                             (* Math.PI *)
  fmul : F -> F -> F;
  fdiv : F -> F -> F;
  fsin : F -> F;                      (* Math.sin *)
  fcos : F -> F;                      (* Math.cos *)
  mat4_create : Mat;                  (* contents of mat4.create() *)
  mat4_identity : Mat;
  mat4_translate : Mat -> F * F * F -> Mat;
  mat4_rotate : Mat -> F * F * F -> F -> Mat;
  mat4_multiply : Mat -> Mat -> Mat;
  mat4_perspective : F -> F -> F -> F -> Mat
}.
Arguments lit {F Mat}. Arguments PI {F Mat}. Arguments fmul {F Mat}.
Arguments fdiv {F Mat}. Arguments fsin {F Mat}. Arguments fcos {F Mat}.
Arguments mat4_create {F Mat}. Arguments mat4_identity {F Mat}.
Arguments mat4_translate {F Mat}. Arguments mat4_rotate {F Mat}.
Arguments mat4_multiply {F Mat}. Arguments mat4_perspective {F Mat}.

(** The exports of [/src/cube.js] used by [main.js]. *)
Record CubeData := {
  cubeVertexArray_byteLength : Z;
  cubeVertexSize : Z;
  cubeUVOffset : Z;
  cubePositionOffset : Z;
  cubeVertexCount : Z
}.

(** ** WebGPU constants *)

Definition GPUBufferUsage_VERTEX : Z := 32.
Definition GPUBufferUsage_UNIFORM : Z := 64.
Definition GPUBufferUsage_COPY_DST : Z := 8.
Definition GPUTextureUsage_RENDER_ATTACHMENT : Z := 16.

(** ** JS number semantics used by the program *)

(** A JS number other than NaN (no product in the program can be NaN): a
    finite double, given by its exact rational value, or an infinity. *)
Inductive Number :=
| Finite (q : Q)
| Infinity (negative : bool).

(** [floor (log2 (n / d))] for [n, d > 0]. *)
Definition log2_floor_Q (n d : Z) : Z :=
  let k := Z.log2 n - Z.log2 d in
  if 0 <=? k then (if d * 2 ^ k <=? n then k else k - 1)
  else (if d <=? n * 2 ^ (- k) then k else k - 1).

(** [n / d] for [d > 0] rounded to the nearest integer, ties to even. *)
Definition round_half_even (n d : Z) : Z :=
  let q := n / d in
  let r := n mod d in
  if 2 * r <? d then q
  else if d <? 2 * r then q + 1
  else if Z.even q then q else q + 1.

(** IEEE 754 binary64 rounding (round to nearest, ties to even): a 53-bit
    significand, exponents down to the subnormal [2^-1074], and overflow
    to an infinity from [2^1024] on. *)
Definition round_binary64 (x : Q) : Number :=
  let n := Qnum x in
  let d := Zpos (Qden x) in
  if n =? 0 then Finite 0 else
  let e := Z.max (log2_floor_Q (Z.abs n) d - 52) (-1074) in
  if 0 <=? e then
    let m := round_half_even n (d * 2 ^ e) in
    if 2 ^ 1024 <=? Z.abs m * 2 ^ e then Infinity (n <? 0)
    else Finite (inject_Z (m * 2 ^ e))
  else
    let m := round_half_even (n * 2 ^ (- e)) d in
    Finite (Qmake m (Z.to_pos (2 ^ (- e)))).

(** [x * y] on two finite doubles. *)
Definition js_mul (x y : Q) : Number := round_binary64 (x * y).

(** WebIDL [unsigned long] conversion: truncation towards zero, then
    modulo 2^32; an infinity converts to 0. *)
Definition to_unsigned_long (x : Number) : Z :=
  match x with
  | Finite q => Z.modulo (Z.quot (Qnum q) (Zpos (Qden q))) (2 ^ 32)
  | Infinity _ => 0
  end.

(** Setting [canvas.width] / [canvas.height]: the attribute reflects an
    [unsigned long] with a default (300 for [width], 150 for [height]) that
    replaces values above 2^31 - 1 (HTML, reflecting unsigned long). *)
Definition set_canvas_dim (default : Z) (x : Number) : Z :=
  let n := to_unsigned_long x in
  if n <=? 2147483647 then n else default.

Definition canvas_width_default : Z := 300.
Definition canvas_height_default : Z := 150.

(** [x !== z] between a number and an integer-valued number. *)
Definition js_neq (x : Number) (z : Z) : bool :=
  match x with
  | Finite q => negb (Qeq_bool q (inject_Z z))
  | Infinity _ => true
  end.

(** Truthiness of a (non-NaN) number. *)
Definition num_truthy (x : Number) : bool :=
  match x with
  | Finite q => negb (Qeq_bool q 0)
  | Infinity _ => true
  end.

(** ** GPU objects *)

Record GPUBuffer := { buf_id : nat; buf_size : Z; buf_usage : Z }.

Record GPUTexture := {
  tex_id : nat; tex_w : Z; tex_h : Z; tex_format : string; tex_usage : Z }.

(** A GPU texture object is always truthy. *)
Definition texture_truthy (_ : GPUTexture) : bool := true.

Inductive GPUTextureView :=
| ViewOf (t : GPUTexture)          (* t.createView() *)
| CurrentTextureView.              (* context.getCurrentTexture().createView() *)

(** The commands recorded by the command encoder of a frame. *)
Inductive Cmd :=
| BeginRenderPass (color : option GPUTextureView) (depth : GPUTextureView)
| SetPipeline (pipeline : nat)
| SetBindGroup (index : Z) (group : nat)
| SetVertexBuffer (slot : Z) (buffer : nat)
| Draw (vertexCount : Z)
| EndPass.

Section Program.

Variables F Mat : Type.
Variable L : Mat4Lib F Mat.
Variable cube : CubeData.

(** A [Float32Array]: its length in elements, its offset in its
    [ArrayBuffer], and its contents. *)
Record Float32Array := { f32_length : Z; f32_byteOffset : Z; f32_val : Mat }.

Definition byteLength (a : Float32Array) : Z := 4 * f32_length a.

(** ** Host calls *)

Inductive Call :=
| CConsoleError (msg : string)
| CRequestAdapter
| CRequestDevice
| CLoadFile (path : string)
| CCreateShaderModule (id : nat)
| CQuerySelector (sel : string)
| CGetContext (kind : string)
| CGetPreferredCanvasFormat
| CConfigure (format alphaMode : string)
| CCreateBuffer (b : GPUBuffer) (mappedAtCreation : bool)
| CGetMappedRange (buf : nat)
| CF32Set (buf : nat)              (* new Float32Array(range).set(cubeVertexArray) *)
| CUnmap (buf : nat)
| CCreateRenderPipeline (id : nat)
| CCreateTexture (t : GPUTexture)
| CDestroyTexture (t : nat)
| CGetBindGroupLayout (pipeline : nat) (index : Z)
| CCreateBindGroup (id : nat) (buf : nat)
| CCreateView (v : GPUTextureView)
| CMat4 (op : string)               (* a call of the matrix library *)
| CWriteBuffer (buf : nat) (bufferOffset : Z) (data : Mat) (dataOffset size : Z)
| CGetCurrentTexture
| CCreateCommandEncoder (label : string)
| CSubmit (commandBuffers : list (list Cmd))
| CRequestAnimationFrame.

Inductive Exn :=
| TypeError (what : string)         (* property access on null / undefined *)
| HostError (c : Call).             (* a host call threw or its promise rejected *)

(** What the page gives the program at load time. *)
Record Host := {
  gpu_present : bool;                (* navigator.gpu is defined *)
  adapter_null : bool;               (* requestAdapter() resolves to null *)
  canvas_present : bool;             (* querySelector('canvas') finds one *)
  context_present : bool;            (* getContext('webgpu') is not null *)
  client_width : Z;
  client_height : Z;
  window_devicePixelRatio : Q;
  preferred_format : string;
  host_throws : Call -> option Exn
}.

(** ** A state and exception monad over the host *)

Record World := { w_trace : list Call; w_next : nat }.

Definition SM (A : Type) := World -> (Exn + A) * World.

Definition ret {A} (a : A) : SM A := fun w => (inr a, w).

Definition bind {A B} (m : SM A) (k : A -> SM B) : SM B :=
  fun w => match m w with
           | (inl e, w') => (inl e, w')
           | (inr a, w') => k a w'
           end.

Definition throw {A} (e : Exn) : SM A := fun w => (inl e, w).

Definition call (h : Host) (c : Call) : SM unit :=
  fun w =>
    let w' := {| w_trace := w_trace w ++ [c]; w_next := w_next w |} in
    match host_throws h c with
    | Some e => (inl e, w')
    | None => (inr tt, w')
    end.

(** A fresh handle for a GPU object. *)
Definition new_id : SM nat :=
  fun w => (inr (w_next w), {| w_trace := w_trace w; w_next := S (w_next w) |}).


Definition get_next : SM nat := fun w => (inr (w_next w), w).

Notation "x <- m ;; k" := (bind m (fun x => k))
  (at level 61, m at next level, right associativity).

(** The world the module starts in: empty trace, handle 0 unused. *)
Definition initial_world : World := {| w_trace := []; w_next := 1 |}.

(** ** Module-level bindings of [main.js] *)

Record RenderPassDescriptor := {
  rpd_color_view : option GPUTextureView;    (* colorAttachments[0].view *)
  rpd_depth_view : GPUTextureView            (* depthStencilAttachment.view *)
}.

Record Prog := {
  devicePixelRatio : Q;
  presentationFormat : string;
  cubeShaderModule : nat;
  verticesBuffer : GPUBuffer;
  renderPipeline : nat;
  depthTexture : GPUTexture;
  uniformBuffer : GPUBuffer;
  uniformBindGroup : nat;
  renderPassDescriptor : RenderPassDescriptor;
  aspect : F;
  projectionMatrix : Mat;
  modelViewProjectionMatrix : Float32Array;
  canvas_width : Z;                          (* canvas.width *)
  canvas_height : Z;                         (* canvas.height *)
  next_id : nat                              (* next free GPU handle *)
}.

Definition depthFormat : string := "depth24plus".
Definition uniformBufferSize : Z := 4 * 16.

(** [(2 * Math.PI) / 5] *)
Definition fovy : F := fdiv L (fmul L (lit L 2%Q) (PI L)) (lit L 5%Q).

(** [canvas.width / canvas.height] *)
Definition aspect_of (w h : Z) : F := fdiv L (lit L (inject_Z w)) (lit L (inject_Z h)).

(** ** Setup: lines 5-99 and the first [requestAnimationFrame] (line 149) *)

Definition gpu_unsupported_msg : string := "WebGPU is not supported in this browser.".

Definition setup (h : Host) : SM Prog :=
  _ <- (if gpu_present h then ret tt
        else call h (CConsoleError gpu_unsupported_msg));;
  _ <- (if gpu_present h then call h CRequestAdapter
        else throw (TypeError "navigator.gpu.requestAdapter"));;
  _ <- (if adapter_null h then throw (TypeError "adapter.requestDevice")
        else call h CRequestDevice);;
  _ <- call h (CLoadFile "./shaders/cube.wgsl");;
  sm <- new_id;;
  _ <- call h (CCreateShaderModule sm);;
  _ <- call h (CQuerySelector "canvas");;
  _ <- (if canvas_present h then call h (CGetContext "webgpu")
        else throw (TypeError "canvas.getContext"));;
  let dpr := window_devicePixelRatio h in
  let cw := set_canvas_dim canvas_width_default (js_mul (inject_Z (client_width h)) dpr) in
  let ch := set_canvas_dim canvas_height_default (js_mul (inject_Z (client_height h)) dpr) in
  _ <- call h CGetPreferredCanvasFormat;;
  let fmt := preferred_format h in
  _ <- (if context_present h then call h (CConfigure fmt "premultiplied")
        else throw (TypeError "context.configure"));;
  vb_id <- new_id;;
  let vb := {| buf_id := vb_id; buf_size := cubeVertexArray_byteLength cube;
               buf_usage := GPUBufferUsage_VERTEX |} in
  _ <- call h (CCreateBuffer vb true);;
  _ <- call h (CGetMappedRange vb_id);;
  _ <- call h (CF32Set vb_id);;
  _ <- call h (CUnmap vb_id);;
  rp <- new_id;;
  _ <- call h (CCreateRenderPipeline rp);;
  dt_id <- new_id;;
  let dt := {| tex_id := dt_id; tex_w := cw; tex_h := ch; tex_format := depthFormat;
               tex_usage := GPUTextureUsage_RENDER_ATTACHMENT |} in
  _ <- call h (CCreateTexture dt);;
  ub_id <- new_id;;
  let ub := {| buf_id := ub_id; buf_size := uniformBufferSize;
               buf_usage := Z.lor GPUBufferUsage_UNIFORM GPUBufferUsage_COPY_DST |} in
  _ <- call h (CCreateBuffer ub false);;
  _ <- call h (CGetBindGroupLayout rp 0);;
  bg <- new_id;;
  _ <- call h (CCreateBindGroup bg ub_id);;
  _ <- call h (CCreateView (ViewOf dt));;
  let rpd := {| rpd_color_view := None; rpd_depth_view := ViewOf dt |} in
  let asp := aspect_of cw ch in
  _ <- call h (CMat4 "perspective");;
  let proj := mat4_perspective L fovy asp (lit L 1%Q) (lit L 100%Q) in
  _ <- call h (CMat4 "create");;
  let mvp := {| f32_length := 16; f32_byteOffset := 0; f32_val := mat4_create L |} in
  _ <- call h CRequestAnimationFrame;;
  nxt <- get_next;;
  ret {| devicePixelRatio := dpr; presentationFormat := fmt; cubeShaderModule := sm;
         verticesBuffer := vb; renderPipeline := rp; depthTexture := dt;
         uniformBuffer := ub; uniformBindGroup := bg; renderPassDescriptor := rpd;
         aspect := asp; projectionMatrix := proj; modelViewProjectionMatrix := mvp;
         canvas_width := cw; canvas_height := ch; next_id := nxt |}.

Definition setup_run (h : Host) : (Exn + Prog) * World := setup h initial_world.

(** ** The per-frame callback: lines 101-148 *)

Record FrameInput := {
  in_clientWidth : Z;         (* canvas.clientWidth during this frame *)
  in_clientHeight : Z;        (* canvas.clientHeight during this frame *)
  in_dateNow : Z              (* Date.now() *)
}.

(** [getTransformationMatrix]: writes into [modelViewProjectionMatrix] in
    place and returns it. *)
Definition getTransformationMatrix (p : Prog) (dateNow : Z) : Float32Array * list Call :=
  let viewMatrix := mat4_identity L in
  let viewMatrix := mat4_translate L viewMatrix (lit L 0%Q, lit L 0%Q, lit L (-4)%Q) in
  let now := fdiv L (lit L (inject_Z dateNow)) (lit L 1000%Q) in
  let viewMatrix := mat4_rotate L viewMatrix (fsin L now, fcos L now, lit L 0%Q) (lit L 1%Q) in
  let dst := modelViewProjectionMatrix p in
  ({| f32_length := f32_length dst; f32_byteOffset := f32_byteOffset dst;
      f32_val := mat4_multiply L (projectionMatrix p) viewMatrix |},
   [CMat4 "identity"; CMat4 "translate"; CMat4 "rotate"; CMat4 "multiply"]).

(** The resize branch of [frame] (lines 116-124). *)
Definition resize (p : Prog) (currentWidth currentHeight : Number) : Prog * list Call :=
  let trd := if texture_truthy (depthTexture p)
             then [CDestroyTexture (tex_id (depthTexture p))] else [] in
  let w := set_canvas_dim canvas_width_default currentWidth in
  let h := set_canvas_dim canvas_height_default currentHeight in
  let asp := aspect_of w h in
  let t := {| tex_id := next_id p; tex_w := w; tex_h := h; tex_format := depthFormat;
              tex_usage := GPUTextureUsage_RENDER_ATTACHMENT |} in
  ({| devicePixelRatio := devicePixelRatio p; presentationFormat := presentationFormat p;
      cubeShaderModule := cubeShaderModule p; verticesBuffer := verticesBuffer p;
      renderPipeline := renderPipeline p; depthTexture := t;
      uniformBuffer := uniformBuffer p; uniformBindGroup := uniformBindGroup p;
      renderPassDescriptor := renderPassDescriptor p; aspect := asp;
      projectionMatrix := projectionMatrix p;
      modelViewProjectionMatrix := modelViewProjectionMatrix p;
      canvas_width := w; canvas_height := h; next_id := S (next_id p) |},
   trd ++ [CCreateTexture t]).

(** The condition of line 115. *)
Definition resize_cond (p : Prog) (currentWidth currentHeight : Number) : bool :=
  (js_neq currentWidth (canvas_width p) || js_neq currentHeight (canvas_height p)
   || negb (texture_truthy (depthTexture p)))
  && num_truthy currentWidth && num_truthy currentHeight.

Definition set_rpd_and_mvp (p : Prog) (rpd : RenderPassDescriptor) (mvp : Float32Array) : Prog :=
  {| devicePixelRatio := devicePixelRatio p; presentationFormat := presentationFormat p;
     cubeShaderModule := cubeShaderModule p; verticesBuffer := verticesBuffer p;
     renderPipeline := renderPipeline p; depthTexture := depthTexture p;
     uniformBuffer := uniformBuffer p; uniformBindGroup := uniformBindGroup p;
     renderPassDescriptor := rpd; aspect := aspect p;
     projectionMatrix := projectionMatrix p; modelViewProjectionMatrix := mvp;
     canvas_width := canvas_width p; canvas_height := canvas_height p;
     next_id := next_id p |}.

Definition frame (inp : FrameInput) (p : Prog) : Prog * list Call :=
  let currentWidth := js_mul (inject_Z (in_clientWidth inp)) (devicePixelRatio p) in
  let currentHeight := js_mul (inject_Z (in_clientHeight inp)) (devicePixelRatio p) in
  let '(p1, tr1) :=
    if resize_cond p currentWidth currentHeight
    then resize p currentWidth currentHeight else (p, []) in
  (* line 126 *)
  let dv := ViewOf (depthTexture p1) in
  let rpd1 := {| rpd_color_view := rpd_color_view (renderPassDescriptor p1);
                 rpd_depth_view := dv |} in
  (* lines 127-134 *)
  let '(mvp, trm) := getTransformationMatrix p1 (in_dateNow inp) in
  let ub := uniformBuffer p1 in
  (* lines 135-137 *)
  let rpd2 := {| rpd_color_view := Some CurrentTextureView;
                 rpd_depth_view := rpd_depth_view rpd1 |} in
  (* lines 139-146 *)
  let cmds := [BeginRenderPass (rpd_color_view rpd2) (rpd_depth_view rpd2);
               SetPipeline (renderPipeline p1);
               SetBindGroup 0 (uniformBindGroup p1);
               SetVertexBuffer 0 (buf_id (verticesBuffer p1));
               Draw (cubeVertexCount cube);
               EndPass] in
  (set_rpd_and_mvp p1 rpd2 mvp,
   tr1 ++ [CCreateView dv] ++ trm ++
   [CWriteBuffer (buf_id ub) 0 (f32_val mvp) (f32_byteOffset mvp) (byteLength mvp);
    CGetCurrentTexture; CCreateView CurrentTextureView;
    CCreateCommandEncoder "frame";
    CSubmit [cmds];
    CRequestAnimationFrame]).

(** ** The animation-callback loop *)

Inductive Callback := FrameCallback.

Record Loop := { l_prog : Prog; l_pending : list Callback }.

Definition is_raf (c : Call) : bool :=
  match c with CRequestAnimationFrame => true | _ => false end.

Definition count_raf (tr : list Call) : nat := List.length (filter is_raf tr).

(** After setup the pending callbacks are those requested during setup. *)
Definition start (p : Prog) (w : World) : Loop :=
  {| l_prog := p; l_pending := repeat FrameCallback (count_raf (w_trace w)) |}.

(** One turn of the event loop: the oldest pending callback runs to
    completion; the callbacks it requests are queued. *)
Definition loop_step (inp : FrameInput) (l : Loop) : Loop :=
  match l_pending l with
  | [] => l
  | FrameCallback :: rest =>
      let '(p', tr) := frame inp (l_prog l) in
      {| l_prog := p'; l_pending := rest ++ repeat FrameCallback (count_raf tr) |}
  end.

Fixpoint run (ins : list FrameInput) (l : Loop) : Loop :=
  match ins with
  | [] => l
  | i :: ins' => run ins' (loop_step i l)
  end.

(** The states of the module's bindings reachable by setup and frames. *)
Inductive reachable : Prog -> Prop :=
| reach_setup h p w : setup_run h = (inr p, w) -> reachable p
| reach_frame inp p : reachable p -> reachable (fst (frame inp p)).

(** ** Classifying host calls *)

Definition is_write_or_submit (c : Call) : bool :=
  match c with CWriteBuffer _ _ _ _ _ | CSubmit _ => true | _ => false end.

Definition is_draw (c : Cmd) : bool :=
  match c with Draw _ => true | _ => false end.

Definition is_texture_lifecycle (c : Call) : bool :=
  match c with CCreateTexture _ | CDestroyTexture _ => true | _ => false end.

(** Creation of the handles other than textures. *)
Definition is_handle_creation (c : Call) : bool :=
  match c with
  | CCreateBuffer _ _ | CCreateRenderPipeline _ | CCreateBindGroup _ _
  | CCreateShaderModule _ => true
  | _ => false
  end.

(** Calls that write into the contents of buffer [id]. *)
Definition writes_buffer (id : nat) (c : Call) : bool :=
  match c with
  | CF32Set b | CWriteBuffer b _ _ _ _ => Nat.eqb b id
  | _ => false
  end.

(** Calls that act on buffer [id]. *)
Definition touches_buffer (id : nat) (c : Call) : bool :=
  match c with
  | CCreateBuffer b _ => Nat.eqb (buf_id b) id
  | CGetMappedRange b | CF32Set b | CUnmap b | CWriteBuffer b _ _ _ _ => Nat.eqb b id
  | _ => false
  end.

Definition is_perspective (c : Call) : bool :=
  match c with CMat4 op => String.eqb op "perspective" | _ => false end.

Definition is_console (c : Call) : bool :=
  match c with CConsoleError _ => true | _ => false end.

End Program.

(** Implicit type parameters of the model. *)
Arguments devicePixelRatio {F Mat}.
Arguments presentationFormat {F Mat}.
Arguments cubeShaderModule {F Mat}.
Arguments verticesBuffer {F Mat}.
Arguments renderPipeline {F Mat}.
Arguments depthTexture {F Mat}.
Arguments uniformBuffer {F Mat}.
Arguments uniformBindGroup {F Mat}.
Arguments renderPassDescriptor {F Mat}.
Arguments aspect {F Mat}.
Arguments projectionMatrix {F Mat}.
Arguments modelViewProjectionMatrix {F Mat}.
Arguments canvas_width {F Mat}.
Arguments canvas_height {F Mat}.
Arguments next_id {F Mat}.
Arguments l_prog {F Mat}.
Arguments l_pending {F Mat}.
Arguments f32_length {Mat}.
Arguments f32_byteOffset {Mat}.
Arguments f32_val {Mat}.
Arguments byteLength {Mat}.
Arguments gpu_present {Mat}.
Arguments adapter_null {Mat}.
Arguments canvas_present {Mat}.
Arguments context_present {Mat}.
Arguments client_width {Mat}.
Arguments client_height {Mat}.
Arguments window_devicePixelRatio {Mat}.
Arguments preferred_format {Mat}.
Arguments host_throws {Mat}.
Arguments w_trace {Mat}.
Arguments w_next {Mat}.
Arguments CConsoleError {Mat}.
Arguments CRequestAdapter {Mat}.
Arguments CRequestDevice {Mat}.
Arguments CLoadFile {Mat}.
Arguments CCreateShaderModule {Mat}.
Arguments CQuerySelector {Mat}.
Arguments CGetContext {Mat}.
Arguments CGetPreferredCanvasFormat {Mat}.
Arguments CConfigure {Mat}.
Arguments CCreateBuffer {Mat}.
Arguments CGetMappedRange {Mat}.
Arguments CF32Set {Mat}.
Arguments CUnmap {Mat}.
Arguments CCreateRenderPipeline {Mat}.
Arguments CCreateTexture {Mat}.
Arguments CDestroyTexture {Mat}.
Arguments CGetBindGroupLayout {Mat}.
Arguments CCreateBindGroup {Mat}.
Arguments CCreateView {Mat}.
Arguments CMat4 {Mat}.
Arguments CWriteBuffer {Mat}.
Arguments CGetCurrentTexture {Mat}.
Arguments CCreateCommandEncoder {Mat}.
Arguments CSubmit {Mat}.
Arguments CRequestAnimationFrame {Mat}.
Arguments TypeError {Mat}.
Arguments HostError {Mat}.
Arguments is_raf {Mat}.
Arguments count_raf {Mat}.
Arguments is_write_or_submit {Mat}.
Arguments is_texture_lifecycle {Mat}.
Arguments is_handle_creation {Mat}.
Arguments writes_buffer {Mat}.
Arguments touches_buffer {Mat}.
Arguments is_perspective {Mat}.
Arguments is_console {Mat}.

(** ** Concrete instances, for evaluating the model *)

(** A stand-in for the matrix library over rationals. *)
Definition QLib : Mat4Lib Q unit := {|
  lit := fun q => q; PI := (355 # 113)%Q; fmul := Qmult; fdiv := Qdiv;
  fsin := fun x => x; fcos := fun x => x;
  mat4_create := tt; mat4_identity := tt;
  mat4_translate := fun _ _ => tt; mat4_rotate := fun _ _ _ => tt;
  mat4_multiply := fun _ _ => tt; mat4_perspective := fun _ _ _ _ => tt |}.

(** The cube of the WebGPU samples: 36 vertices of 10 floats. *)
Definition cube36 : CubeData := {|
  cubeVertexArray_byteLength := 1440; cubeVertexSize := 40; cubeUVOffset := 32;
  cubePositionOffset := 0; cubeVertexCount := 36 |}.

(** A page where WebGPU is available and nothing fails. *)
Definition host_ok (cw ch : Z) (dpr : Q) : Host unit := {|
  gpu_present := true; adapter_null := false; canvas_present := true;
  context_present := true; client_width := cw; client_height := ch;
  window_devicePixelRatio := dpr; preferred_format := "bgra8unorm";
  host_throws := fun _ => None |}.

(** * Properties *)

Section Proofs.

Variables (F Mat : Type) (L : Mat4Lib F Mat) (cube : CubeData).

Local Abbreviation Prog := (Prog F Mat).
Local Abbreviation Call := (Call Mat).
Local Abbreviation Host := (Host Mat).
Local Abbreviation World := (World Mat).
Local Abbreviation setup_run := (setup_run F Mat L cube).
Local Abbreviation frame := (frame F Mat L cube).
Local Abbreviation reachable := (reachable F Mat L cube).
Local Abbreviation getTransformationMatrix := (getTransformationMatrix F Mat L).

(** Unfolds one run of [setup] and splits on every host decision. *)
Ltac split_setup h H :=
  unfold setup_run, setup in H;
  destruct (gpu_present h) eqn:?; destruct (adapter_null h) eqn:?;
  destruct (canvas_present h) eqn:?; destruct (context_present h) eqn:?;
  cbv beta iota zeta delta [bind call new_id get_next ret throw
                            initial_world w_trace w_next app] in H;
  repeat (match type of H with
          | context [host_throws ?h ?c] => destruct (host_throws h c) eqn:?
          end;
          cbv beta iota zeta delta [w_trace w_next app] in H;
          try discriminate H).

(** A successful setup: what it binds and which host calls it made. *)
Lemma setup_run_success h p w :
  setup_run h = (inr p, w) ->
  let dpr := window_devicePixelRatio h in
  let cw := set_canvas_dim canvas_width_default (js_mul (inject_Z (client_width h)) dpr) in
  let ch := set_canvas_dim canvas_height_default (js_mul (inject_Z (client_height h)) dpr) in
  let vb := {| buf_id := 2; buf_size := cubeVertexArray_byteLength cube;
               buf_usage := GPUBufferUsage_VERTEX |} in
  let dt := {| tex_id := 4; tex_w := cw; tex_h := ch; tex_format := depthFormat;
               tex_usage := GPUTextureUsage_RENDER_ATTACHMENT |} in
  let ub := {| buf_id := 5; buf_size := uniformBufferSize;
               buf_usage := Z.lor GPUBufferUsage_UNIFORM GPUBufferUsage_COPY_DST |} in
  gpu_present h = true /\
  p = {| devicePixelRatio := dpr; presentationFormat := preferred_format h;
         cubeShaderModule := 1; verticesBuffer := vb; renderPipeline := 3;
         depthTexture := dt; uniformBuffer := ub; uniformBindGroup := 6;
         renderPassDescriptor := {| rpd_color_view := None; rpd_depth_view := ViewOf dt |};
         aspect := aspect_of F Mat L cw ch;
         projectionMatrix := mat4_perspective L (fovy F Mat L) (aspect_of F Mat L cw ch)
                               (lit L 1%Q) (lit L 100%Q);
         modelViewProjectionMatrix := {| f32_length := 16; f32_byteOffset := 0;
                                         f32_val := mat4_create L |};
         canvas_width := cw; canvas_height := ch; next_id := 7 |} /\
  w = {| w_trace :=
           [CRequestAdapter; CRequestDevice; CLoadFile "./shaders/cube.wgsl";
            CCreateShaderModule 1; CQuerySelector "canvas"; CGetContext "webgpu";
            CGetPreferredCanvasFormat;
            CConfigure (preferred_format h) "premultiplied";
            CCreateBuffer vb true; CGetMappedRange 2; CF32Set 2; CUnmap 2;
            CCreateRenderPipeline 3; CCreateTexture dt;
            CCreateBuffer ub false; CGetBindGroupLayout 3 0;
            CCreateBindGroup 6 5; CCreateView (ViewOf dt);
            CMat4 "perspective"; CMat4 "create"; CRequestAnimationFrame];
         w_next := 7 |}.
Proof.
  intros H. split_setup h H. inversion H; subst; clear H.
  repeat split; reflexivity.
Qed.

Local Abbreviation resize_cond := (resize_cond F Mat).

(** The invariant of the module's bindings between two frames. *)
Definition prog_inv (q : Prog) : Prop :=
  tex_w (depthTexture q) = canvas_width q /\
  tex_h (depthTexture q) = canvas_height q /\
  buf_id (verticesBuffer q) = 2%nat /\
  buf_id (uniformBuffer q) = 5%nat /\
  buf_size (uniformBuffer q) = 64 /\
  f32_length (modelViewProjectionMatrix q) = 16 /\
  f32_byteOffset (modelViewProjectionMatrix q) = 0.


Lemma setup_prog_inv h p w : setup_run h = (inr p, w) -> prog_inv p.
Proof.
  intros H. apply setup_run_success in H. destruct H as [_ [-> _]].
  repeat split.
Qed.

Lemma frame_prog_inv inp q : prog_inv q -> prog_inv (fst (frame inp q)).
Proof.
  unfold prog_inv, frame, resize, set_rpd_and_mvp, getTransformationMatrix.
  intros Hq. destruct (resize_cond _ _ _); simpl; tauto.
Qed.

Lemma reachable_inv q : reachable q -> prog_inv q.
Proof.
  induction 1 as [h p w H | inp p _ IH].
  - exact (setup_prog_inv h p w H).
  - now apply frame_prog_inv.
Qed.

(** The write and the submission of one frame. *)
Lemma frame_write_and_submit inp p :
  filter is_write_or_submit (snd (frame inp p)) =
  [CWriteBuffer (buf_id (uniformBuffer p)) 0
     (f32_val (fst (getTransformationMatrix p (in_dateNow inp))))
     (f32_byteOffset (modelViewProjectionMatrix p))
     (byteLength (modelViewProjectionMatrix p));
   CSubmit [[BeginRenderPass (Some CurrentTextureView)
                   (ViewOf (depthTexture (fst (frame inp p))));
                 SetPipeline (renderPipeline p);
                 SetBindGroup 0 (uniformBindGroup p);
                 SetVertexBuffer 0 (buf_id (verticesBuffer p));
                 Draw (cubeVertexCount cube);
                 EndPass]]].
Proof.
  unfold frame, resize, set_rpd_and_mvp, getTransformationMatrix.
  destruct (resize_cond _ _ _); simpl;
    rewrite ?filter_app; simpl; reflexivity.
Qed.

Local Abbreviation start := (start F Mat).
Local Abbreviation run := (run F Mat L cube).

(** ** C1: the depth attachment of every frame has the canvas's size *)

(** C1. In every frame, the depth-stencil attachment of the render pass
    is a view of the current depth texture, whose dimensions are
    [canvas.width] x [canvas.height] at the time the pass is encoded (the
    canvas is not resized after line 118 of the frame). *)
Theorem frame_depth_attachment_matches_canvas p inp cbs cb color dv :
  reachable p ->
  In (CSubmit cbs) (snd (frame inp p)) -> In cb cbs ->
  In (BeginRenderPass color dv) cb ->
  exists t, dv = ViewOf t /\ t = depthTexture (fst (frame inp p)) /\
            tex_w t = canvas_width (fst (frame inp p)) /\
            tex_h t = canvas_height (fst (frame inp p)).
Proof.
  intros Hr Hs Hcb Hb.
  assert (Hf : In (CSubmit cbs) (filter is_write_or_submit (snd (frame inp p))))
    by (apply filter_In; auto).
  rewrite frame_write_and_submit in Hf. simpl in Hf.
  destruct Hf as [Hf | [Hf | []]]; [discriminate |]. injection Hf as <-.
  destruct Hcb as [<- | []]. simpl in Hb.
  destruct Hb as [Hb | Hb].
  - injection Hb as _ <-.
    assert (Hi : prog_inv (fst (frame inp p)))
      by (apply reachable_inv; constructor; exact Hr).
    destruct Hi as [Hw [Hh _]]. eauto.
  - repeat (destruct Hb as [Hb | Hb]; [discriminate |]). contradiction.
Qed.

(** ** C2: one matrix upload and one draw per frame *)

(** C2. Every frame writes the recomputed model-view-projection matrix
    into the uniform buffer at offset 0, then submits one command buffer
    holding exactly one draw of [cubeVertexCount] vertices; it writes no
    other buffer and submits nothing else. *)
Theorem frame_writes_matrix_then_submits_one_draw p inp :
  exists cb o s,
    filter is_write_or_submit (snd (frame inp p)) =
      [CWriteBuffer (buf_id (uniformBuffer p)) 0
         (f32_val (fst (getTransformationMatrix p (in_dateNow inp)))) o s;
       CSubmit [cb]] /\
    filter is_draw cb = [Draw (cubeVertexCount cube)].
Proof.
  rewrite frame_write_and_submit. do 3 eexists. split; reflexivity.
Qed.

(** ** C7: a single animation-callback loop *)

Lemma frame_count_raf inp q : count_raf (snd (frame inp q)) = 1%nat.
Proof.
  unfold frame, resize, set_rpd_and_mvp, getTransformationMatrix, count_raf.
  destruct (resize_cond _ _ _); simpl; reflexivity.
Qed.

Lemma loop_step_one_pending inp l :
  List.length (l_pending l) = 1%nat ->
  List.length (l_pending (loop_step F Mat L cube inp l)) = 1%nat.
Proof.
  unfold loop_step. destruct (l_pending l) as [| [] [| c rest]]; simpl;
    try discriminate.
  intros _. destruct (frame inp (l_prog l)) as [p' tr] eqn:E. simpl.
  pose proof (frame_count_raf inp (l_prog l)) as Hc. rewrite E in Hc.
  simpl in Hc. rewrite Hc. reflexivity.
Qed.

(** C7. Setup requests exactly one animation frame, every frame requests
    exactly one more, and the event loop, which runs one pending callback
    to completion per turn, always holds exactly one pending callback
    between turns. *)
Theorem single_animation_callback_loop h p w :
  setup_run h = (inr p, w) ->
  count_raf (w_trace w) = 1%nat /\
  (forall q inp, count_raf (snd (frame inp q)) = 1%nat) /\
  (forall ins, List.length (l_pending (run ins (start p w))) = 1%nat).
Proof.
  intros H.
  assert (H1 : count_raf (w_trace w) = 1%nat).
  { apply setup_run_success in H. destruct H as [_ [_ ->]]. reflexivity. }
  split; [exact H1 | split; [intros q inp; apply frame_count_raf |]].
  intros ins.
  assert (H0 : List.length (l_pending (start p w)) = 1%nat)
    by (unfold start; simpl; rewrite H1; reflexivity).
  revert H0. generalize (start p w). induction ins as [| i ins IH]; simpl.
  - auto.
  - intros l Hl. apply IH. apply loop_step_one_pending. exact Hl.
Qed.

(** ** C10: the matrix upload stays within the uniform buffer *)

(** C10. The uniform buffer has [4 * 16 = 64] bytes; the only buffer
    write of a frame targets it at offset 0 with the whole 64-byte matrix
    (data offset 0), so it stays in bounds and fills the buffer. *)
Theorem uniform_write_fills_buffer p inp b off d doff sz :
  reachable p ->
  In (CWriteBuffer b off d doff sz) (snd (frame inp p)) ->
  uniformBufferSize = 64 /\
  buf_size (uniformBuffer p) = uniformBufferSize /\
  byteLength (modelViewProjectionMatrix p) = 64 /\
  b = buf_id (uniformBuffer p) /\ off = 0 /\ doff = 0 /\
  sz = byteLength (modelViewProjectionMatrix p) /\
  off + sz = buf_size (uniformBuffer p).
Proof.
  intros Hr Hin.
  destruct (reachable_inv _ Hr) as (_ & _ & _ & _ & Hs & Hl & Ho).
  assert (Hf : In (CWriteBuffer b off d doff sz)
                  (filter is_write_or_submit (snd (frame inp p))))
    by (apply filter_In; auto).
  rewrite frame_write_and_submit in Hf. simpl in Hf.
  destruct Hf as [Hf | [Hf | []]]; [| discriminate].
  injection Hf as <- <- _ <- <-.
  unfold byteLength. rewrite Hs, Hl, Ho. repeat split.
Qed.

(** ** C8: the vertex data is uploaded once *)

(** C8. Setup acts on the vertex buffer by creating it mapped, taking its
    mapped range, copying the vertex array into it and unmapping it; that
    copy is the only write to it, and no frame changes or writes it. *)
Theorem vertex_buffer_written_once h p w :
  setup_run h = (inr p, w) ->
  filter (touches_buffer (buf_id (verticesBuffer p))) (w_trace w) =
    [CCreateBuffer (verticesBuffer p) true;
     CGetMappedRange (buf_id (verticesBuffer p));
     CF32Set (buf_id (verticesBuffer p));
     CUnmap (buf_id (verticesBuffer p))] /\
  filter (writes_buffer (buf_id (verticesBuffer p))) (w_trace w) =
    [CF32Set (buf_id (verticesBuffer p))] /\
  (forall q inp, reachable q ->
     verticesBuffer (fst (frame inp q)) = verticesBuffer q /\
     filter (writes_buffer (buf_id (verticesBuffer q))) (snd (frame inp q)) = []).
Proof.
  intros H. split; [| split].
  - apply setup_run_success in H. destruct H as [_ [-> ->]]. reflexivity.
  - apply setup_run_success in H. destruct H as [_ [-> ->]]. reflexivity.
  - intros q inp Hr.
    destruct (reachable_inv _ Hr) as (_ & _ & Hv & Hu & _).
    unfold frame, resize, set_rpd_and_mvp, getTransformationMatrix.
    rewrite Hv. destruct (resize_cond _ _ _); simpl; rewrite Hu, ?Hv;
      split; reflexivity.
Qed.

(** ** C9: the projection matrix is computed once *)

Lemma frame_keeps_projection q inp :
  projectionMatrix (fst (frame inp q)) = projectionMatrix q.
Proof.
  unfold frame, resize, set_rpd_and_mvp, getTransformationMatrix.
  destruct (resize_cond _ _ _); reflexivity.
Qed.

Lemma run_keeps_projection ins l :
  projectionMatrix (l_prog (run ins l)) = projectionMatrix (l_prog l).
Proof.
  revert l. induction ins as [| i ins IH]; intros l; simpl; [reflexivity |].
  rewrite IH. unfold loop_step. destruct (l_pending l) as [| [] rest]; [reflexivity |].
  destruct (frame i (l_prog l)) as [p1 tr] eqn:E. simpl.
  pose proof (frame_keeps_projection (l_prog l) i) as Hf.
  rewrite E in Hf. exact Hf.
Qed.

(** C9. Setup calls [mat4.perspective] once, from the startup aspect
    ratio; no frame calls it or changes [projectionMatrix], although a
    resizing frame reassigns [aspect]; so the matrix written by every frame
    is the startup projection times the view matrix, however many frames
    have run. *)
Theorem projection_computed_once h p w :
  setup_run h = (inr p, w) ->
  projectionMatrix p =
    mat4_perspective L (fovy F Mat L) (aspect p) (lit L 1%Q) (lit L 100%Q) /\
  filter is_perspective (w_trace w) = [CMat4 "perspective"] /\
  (forall q inp,
     let cw := js_mul (inject_Z (in_clientWidth inp)) (devicePixelRatio q) in
     let ch := js_mul (inject_Z (in_clientHeight inp)) (devicePixelRatio q) in
     let q' := fst (frame inp q) in
     projectionMatrix q' = projectionMatrix q /\
     filter is_perspective (snd (frame inp q)) = [] /\
     (exists v, f32_val (modelViewProjectionMatrix q') =
                mat4_multiply L (projectionMatrix q) v) /\
     (resize_cond q cw ch = true ->
        aspect q' = aspect_of F Mat L (canvas_width q') (canvas_height q'))) /\
  (forall ins, projectionMatrix (l_prog (run ins (start p w))) = projectionMatrix p).
Proof.
  intros H.
  split; [| split; [| split]].
  - apply setup_run_success in H. destruct H as [_ [-> _]]. reflexivity.
  - apply setup_run_success in H. destruct H as [_ [_ ->]]. reflexivity.
  - intros q inp. simpl. split; [apply frame_keeps_projection |].
    unfold frame, resize, set_rpd_and_mvp, getTransformationMatrix.
    destruct (resize_cond _ _ _); simpl; (split; [reflexivity | split]);
      eauto; discriminate.
  - intros ins. apply run_keeps_projection.
Qed.

(** ** C3: lifecycle of the GPU handles *)

(** C3 (amended). The shader module, the vertex and uniform buffers, the
    render pipeline and the bind group are each created exactly once, by
    setup, and no frame creates or replaces any of them; the depth texture
    is created once by setup, and a frame destroys it and creates its
    replacement exactly when its resize branch (the condition of line 115)
    runs, and otherwise leaves it alone. *)
Theorem handles_created_once_depth_texture_recreated h p w :
  setup_run h = (inr p, w) ->
  filter is_handle_creation (w_trace w) =
    [CCreateShaderModule (cubeShaderModule p);
     CCreateBuffer (verticesBuffer p) true;
     CCreateRenderPipeline (renderPipeline p);
     CCreateBuffer (uniformBuffer p) false;
     CCreateBindGroup (uniformBindGroup p) (buf_id (uniformBuffer p))] /\
  filter is_texture_lifecycle (w_trace w) = [CCreateTexture (depthTexture p)] /\
  (forall q inp,
     let '(q', tr) := frame inp q in
     filter is_handle_creation tr = [] /\
     cubeShaderModule q' = cubeShaderModule q /\
     verticesBuffer q' = verticesBuffer q /\
     uniformBuffer q' = uniformBuffer q /\
     renderPipeline q' = renderPipeline q /\
     uniformBindGroup q' = uniformBindGroup q /\
     (if resize_cond q (js_mul (inject_Z (in_clientWidth inp)) (devicePixelRatio q))
                       (js_mul (inject_Z (in_clientHeight inp)) (devicePixelRatio q))
      then filter is_texture_lifecycle tr =
             [CDestroyTexture (tex_id (depthTexture q)); CCreateTexture (depthTexture q')]
      else filter is_texture_lifecycle tr = [] /\ depthTexture q' = depthTexture q)).
Proof.
  intros H. split; [| split].
  - apply setup_run_success in H. destruct H as [_ [-> ->]]. reflexivity.
  - apply setup_run_success in H. destruct H as [_ [-> ->]]. reflexivity.
  - intros q inp.
    unfold frame, resize, set_rpd_and_mvp, getTransformationMatrix.
    destruct (resize_cond _ _ _); simpl; repeat split.
Qed.

(** ** C4: the resize branch of a frame *)

(** C4 (amended). A frame takes the resize branch exactly when a scaled
    client dimension differs from the canvas's and both are nonzero; it
    then destroys the old depth texture, then assigns the scaled sizes to
    [canvas.width]/[canvas.height], which store them as integers
    ([set_canvas_dim]: truncation), and creates a depth texture of the
    stored size.  Otherwise the depth texture and the canvas size are
    unchanged. *)
Theorem frame_resize_branch p inp :
  let cw := js_mul (inject_Z (in_clientWidth inp)) (devicePixelRatio p) in
  let ch := js_mul (inject_Z (in_clientHeight inp)) (devicePixelRatio p) in
  let '(p', tr) := frame inp p in
  if (js_neq cw (canvas_width p) || js_neq ch (canvas_height p))
     && num_truthy cw && num_truthy ch
  then filter is_texture_lifecycle tr =
         [CDestroyTexture (tex_id (depthTexture p)); CCreateTexture (depthTexture p')] /\
       canvas_width p' = set_canvas_dim canvas_width_default cw /\
       canvas_height p' = set_canvas_dim canvas_height_default ch /\
       tex_w (depthTexture p') = canvas_width p' /\
       tex_h (depthTexture p') = canvas_height p'
  else filter is_texture_lifecycle tr = [] /\ depthTexture p' = depthTexture p /\
       canvas_width p' = canvas_width p /\ canvas_height p' = canvas_height p.
Proof.
  unfold frame, resize, set_rpd_and_mvp, getTransformationMatrix, resize_cond.
  unfold texture_truthy. simpl negb. rewrite orb_false_r. cbv zeta.
  destruct (_ && _ && _); simpl; repeat split.
Qed.

(** ** C5: error handling of setup *)

(** C5. Setup writes to the console only from the [navigator.gpu] check,
    and only when WebGPU is missing; it then carries on, and the next
    statement throws.  Nothing is caught: a failed setup ends with the
    exception of the host call it made last, or with a [TypeError], and a
    setup that completes made only calls that did not throw. *)
Theorem setup_error_handling h :
  let '(r, w) := setup_run h in
  filter is_console (w_trace w) =
    (if gpu_present h then [] else [CConsoleError gpu_unsupported_msg]) /\
  (gpu_present h = false -> host_throws h (CConsoleError gpu_unsupported_msg) = None ->
     r = inl (TypeError "navigator.gpu.requestAdapter") /\
     w_trace w = [CConsoleError gpu_unsupported_msg]) /\
  (forall e, r = inl e ->
     (exists c rest, rev (w_trace w) = c :: rest /\ host_throws h c = Some e) \/
     (exists s, e = TypeError s)) /\
  (forall p, r = inr p -> Forall (fun c => host_throws h c = None) (w_trace w)).
Proof.
  destruct (setup_run h) as [r w] eqn:E.
  split_setup h E.
  all: injection E as <- <-; cbn.
  all: split; [reflexivity | split; [| split]].
  all: try (intros Hg Hc; first [discriminate | congruence | split; reflexivity]).
  all: try (intros e0 He; first
              [ discriminate
              | injection He as <-;
                first [ right; eexists; reflexivity
                      | left; eexists _, _; split; [reflexivity | assumption] ] ]).
  all: intros p0 Hp; first
         [ discriminate
         | repeat (apply Forall_cons; [assumption |]); apply Forall_nil ].
Qed.


(** * Further properties of the setup and of [frame] *)

(** ** The two branches of a frame *)

Lemma frame_branch_false inp p :
  let cw := js_mul (inject_Z (in_clientWidth inp)) (devicePixelRatio p) in
  let ch := js_mul (inject_Z (in_clientHeight inp)) (devicePixelRatio p) in
  resize_cond p cw ch = false ->
  filter is_texture_lifecycle (snd (frame inp p)) = [] /\
  depthTexture (fst (frame inp p)) = depthTexture p /\
  canvas_width (fst (frame inp p)) = canvas_width p /\
  canvas_height (fst (frame inp p)) = canvas_height p /\
  next_id (fst (frame inp p)) = next_id p.
Proof.
  cbv zeta. intros Hc.
  unfold frame, set_rpd_and_mvp, getTransformationMatrix. rewrite Hc. simpl.
  repeat split.
Qed.

Lemma frame_branch_true inp p :
  let cw := js_mul (inject_Z (in_clientWidth inp)) (devicePixelRatio p) in
  let ch := js_mul (inject_Z (in_clientHeight inp)) (devicePixelRatio p) in
  resize_cond p cw ch = true ->
  filter is_texture_lifecycle (snd (frame inp p)) =
    [CDestroyTexture (tex_id (depthTexture p)); CCreateTexture (depthTexture (fst (frame inp p)))] /\
  depthTexture (fst (frame inp p)) =
    {| tex_id := next_id p; tex_w := set_canvas_dim canvas_width_default cw;
       tex_h := set_canvas_dim canvas_height_default ch;
       tex_format := depthFormat; tex_usage := GPUTextureUsage_RENDER_ATTACHMENT |} /\
  canvas_width (fst (frame inp p)) = set_canvas_dim canvas_width_default cw /\
  canvas_height (fst (frame inp p)) = set_canvas_dim canvas_height_default ch /\
  next_id (fst (frame inp p)) = S (next_id p).
Proof.
  cbv zeta. intros Hc.
  unfold frame, resize, set_rpd_and_mvp, getTransformationMatrix. rewrite Hc. simpl.
  repeat split.
Qed.

Lemma frame_keeps_dpr inp p :
  devicePixelRatio (fst (frame inp p)) = devicePixelRatio p.
Proof.
  unfold frame, resize, set_rpd_and_mvp, getTransformationMatrix.
  destruct (resize_cond _ _ _); reflexivity.
Qed.

(** Assigning a number [=== a], for [a] in the attribute's range, stores
    [a]. *)
Lemma set_canvas_dim_int (x : Number) (dflt a : Z) :
  js_neq x a = false -> 0 <= a <= 2147483647 -> set_canvas_dim dflt x = a.
Proof.
  destruct x as [q | neg]; simpl; [| discriminate].
  intros Hx Ha. apply negb_false_iff, Qeq_bool_iff in Hx.
  unfold Qeq in Hx. simpl in Hx. rewrite Z.mul_1_r in Hx.
  unfold set_canvas_dim, to_unsigned_long. rewrite Hx.
  rewrite Z.quot_mul by lia.
  rewrite Z.mod_small by lia.
  destruct (Z.leb_spec a 2147483647); lia.
Qed.

Lemma resize_cond_falsy p cw ch :
  num_truthy cw = false \/ num_truthy ch = false -> resize_cond p cw ch = false.
Proof.
  intros H. unfold resize_cond.
  destruct H as [H | H]; rewrite H; now rewrite ?andb_false_r.
Qed.

(** [0 * y] is [0]. *)
Lemma js_mul_zero_l y : js_mul (inject_Z 0) y = Finite 0.
Proof. reflexivity. Qed.


(** The depth attachment of the pass a frame submits. *)
Lemma frame_pass_depth inp p cbs cb color dv :
  In (CSubmit cbs) (snd (frame inp p)) -> In cb cbs ->
  In (BeginRenderPass color dv) cb ->
  dv = ViewOf (depthTexture (fst (frame inp p))).
Proof.
  intros Hs Hcb Hb.
  assert (Hf : In (CSubmit cbs) (filter is_write_or_submit (snd (frame inp p))))
    by (apply filter_In; auto).
  rewrite frame_write_and_submit in Hf. simpl in Hf.
  destruct Hf as [Hf | [Hf | []]]; [discriminate |]. injection Hf as <-.
  destruct Hcb as [<- | []]. simpl in Hb.
  destruct Hb as [Hb | Hb].
  - injection Hb as _ <-. reflexivity.
  - repeat (destruct Hb as [Hb | Hb]; [discriminate |]). contradiction.
Qed.

(** Handles, usages and formats of the GPU objects between two frames. *)
Definition gpu_inv (q : Prog) : Prop :=
  buf_usage (uniformBuffer q) = 72 /\
  buf_usage (verticesBuffer q) = 32 /\
  tex_format (depthTexture q) = depthFormat /\
  tex_usage (depthTexture q) = GPUTextureUsage_RENDER_ATTACHMENT /\
  (tex_id (depthTexture q) < next_id q)%nat.

Lemma reachable_gpu_inv q : reachable q -> gpu_inv q.
Proof.
  induction 1 as [h p w H | inp p _ IH].
  - apply setup_run_success in H. destruct H as [_ [-> _]].
    unfold gpu_inv. simpl. repeat split. lia.
  - unfold gpu_inv in *.
    unfold frame, resize, set_rpd_and_mvp, getTransformationMatrix.
    destruct (resize_cond _ _ _); simpl; repeat split; try tauto; lia.
Qed.

(** ** X1: resizing settles when the scaled size is a whole number *)

(** When the scaled client sizes (JS products of the client size and the
    device pixel ratio) are whole numbers in the canvas attribute's range,
    a frame leaves the canvas in a state where the next frame, seeing the
    same client size, neither destroys nor creates a depth texture and
    keeps the canvas size. *)
Theorem frame_resize_settles p inp a b :
  js_neq (js_mul (inject_Z (in_clientWidth inp)) (devicePixelRatio p)) a = false ->
  js_neq (js_mul (inject_Z (in_clientHeight inp)) (devicePixelRatio p)) b = false ->
  0 <= a <= 2147483647 -> 0 <= b <= 2147483647 ->
  let p' := fst (frame inp p) in
  filter is_texture_lifecycle (snd (frame inp p')) = [] /\
  depthTexture (fst (frame inp p')) = depthTexture p' /\
  canvas_width (fst (frame inp p')) = canvas_width p' /\
  canvas_height (fst (frame inp p')) = canvas_height p'.
Proof.
  intros Ha Hb Ra Rb. cbv zeta.
  set (cw := js_mul (inject_Z (in_clientWidth inp)) (devicePixelRatio p)) in *.
  set (ch := js_mul (inject_Z (in_clientHeight inp)) (devicePixelRatio p)) in *.
  assert (Hc : resize_cond (fst (frame inp p)) cw ch = false).
  { destruct (resize_cond p cw ch) eqn:E.
    - destruct (frame_branch_true inp p E) as (_ & _ & Hw & Hh & _).
      assert (Ea : canvas_width (fst (frame inp p)) = a)
        by (rewrite Hw; apply set_canvas_dim_int; assumption).
      assert (Eb : canvas_height (fst (frame inp p)) = b)
        by (rewrite Hh; apply set_canvas_dim_int; assumption).
      unfold resize_cond. rewrite Ea, Eb, Ha, Hb. reflexivity.
    - destruct (frame_branch_false inp p E) as (_ & Hd & Hw & Hh & _).
      unfold resize_cond in *. rewrite Hd, Hw, Hh. exact E. }
  pose proof (frame_branch_false inp (fst (frame inp p))) as Hf. cbv zeta in Hf.
  rewrite frame_keeps_dpr in Hf. destruct (Hf Hc) as (H1 & H2 & H3 & H4 & _).
  auto.
Qed.

(** ** X2: a fractional scaled size recreates the depth texture every frame *)

(** When both scaled client dimensions are nonzero and one of them is
    equal to no whole number, every frame, whatever the state, destroys
    the depth texture and creates a new one: the canvas can only store
    whole numbers, so the sizes never compare equal. *)
Theorem frame_recreates_for_fractional_size p inp :
  let cw := js_mul (inject_Z (in_clientWidth inp)) (devicePixelRatio p) in
  let ch := js_mul (inject_Z (in_clientHeight inp)) (devicePixelRatio p) in
  num_truthy cw = true -> num_truthy ch = true ->
  (forall z, js_neq cw z = true) \/ (forall z, js_neq ch z = true) ->
  filter is_texture_lifecycle (snd (frame inp p)) =
    [CDestroyTexture (tex_id (depthTexture p));
     CCreateTexture (depthTexture (fst (frame inp p)))] /\
  canvas_width (fst (frame inp p)) = set_canvas_dim canvas_width_default cw /\
  canvas_height (fst (frame inp p)) = set_canvas_dim canvas_height_default ch.
Proof.
  intros cw ch Tw Th Hfr.
  assert (Hc : resize_cond p cw ch = true).
  { unfold resize_cond. rewrite Tw, Th.
    destruct Hfr as [H | H]; rewrite H; simpl;
      [reflexivity | destruct (js_neq cw _); reflexivity]. }
  destruct (frame_branch_true inp p Hc) as (H1 & _ & H3 & H4 & _). auto.
Qed.

(** ** X3: a zero client dimension skips the resize *)

(** When the canvas's client width or height is 0, a frame neither
    destroys nor creates a depth texture and keeps the canvas size, even
    if that size differs from the client size. *)
Theorem frame_ignores_zero_client_size p inp :
  in_clientWidth inp = 0 \/ in_clientHeight inp = 0 ->
  filter is_texture_lifecycle (snd (frame inp p)) = [] /\
  depthTexture (fst (frame inp p)) = depthTexture p /\
  canvas_width (fst (frame inp p)) = canvas_width p /\
  canvas_height (fst (frame inp p)) = canvas_height p.
Proof.
  intros H.
  assert (Hc : resize_cond p (js_mul (inject_Z (in_clientWidth inp)) (devicePixelRatio p))
                             (js_mul (inject_Z (in_clientHeight inp)) (devicePixelRatio p)) = false).
  { apply resize_cond_falsy.
    destruct H as [H | H]; rewrite H, js_mul_zero_l; [left | right]; reflexivity. }
  destruct (frame_branch_false inp p Hc) as (H1 & H2 & H3 & H4 & _). auto.
Qed.

(** ** X4: the usages the WebGPU calls need *)

(** In every reachable state the uniform buffer has the UNIFORM and
    COPY_DST usages (it is bound as a uniform and written by writeBuffer),
    the vertex buffer has the VERTEX usage, and every depth texture, the
    current one or one a frame creates, has format depth24plus and the
    RENDER_ATTACHMENT usage. *)
Theorem gpu_usage_flags p inp :
  reachable p ->
  Z.land (buf_usage (uniformBuffer p)) GPUBufferUsage_UNIFORM <> 0 /\
  Z.land (buf_usage (uniformBuffer p)) GPUBufferUsage_COPY_DST <> 0 /\
  Z.land (buf_usage (verticesBuffer p)) GPUBufferUsage_VERTEX <> 0 /\
  (forall t, t = depthTexture p \/ In (CCreateTexture t) (snd (frame inp p)) ->
     tex_format t = depthFormat /\
     Z.land (tex_usage t) GPUTextureUsage_RENDER_ATTACHMENT <> 0).
Proof.
  intros Hr. destruct (reachable_gpu_inv _ Hr) as (Hu & Hv & Hf & Ht & _).
  rewrite Hu, Hv. split; [discriminate | split; [discriminate | split; [discriminate |]]].
  intros t [-> | Hin].
  - rewrite Hf, Ht. split; [reflexivity | discriminate].
  - assert (Hl : In (CCreateTexture t) (filter is_texture_lifecycle (snd (frame inp p))))
      by (apply filter_In; auto).
    destruct (resize_cond p (js_mul (inject_Z (in_clientWidth inp)) (devicePixelRatio p))
                            (js_mul (inject_Z (in_clientHeight inp)) (devicePixelRatio p))) eqn:E.
    + destruct (frame_branch_true inp p E) as (H1 & H2 & _).
      rewrite H1 in Hl. simpl in Hl.
      destruct Hl as [Hl | [Hl | []]]; [discriminate |]. injection Hl as <-.
      rewrite H2. split; [reflexivity | discriminate].
    + destruct (frame_branch_false inp p E) as (H1 & _).
      rewrite H1 in Hl. destruct Hl.
Qed.

(** ** X5: no frame renders into a destroyed depth texture *)

(** Handles of successive depth textures never decrease. *)
Lemma frame_tex_id_mono p inp :
  reachable p ->
  (tex_id (depthTexture p) <= tex_id (depthTexture (fst (frame inp p))))%nat.
Proof.
  intros Hr. destruct (reachable_gpu_inv _ Hr) as (_ & _ & _ & _ & Hlt).
  destruct (resize_cond p (js_mul (inject_Z (in_clientWidth inp)) (devicePixelRatio p))
                          (js_mul (inject_Z (in_clientHeight inp)) (devicePixelRatio p))) eqn:E.
  - destruct (frame_branch_true inp p E) as (_ & H2 & _). rewrite H2. simpl. lia.
  - destruct (frame_branch_false inp p E) as (_ & H2 & _). rewrite H2. lia.
Qed.

(** A frame destroys only the depth texture it found, and the one it
    leaves has a larger handle. *)
Lemma frame_destroys_current p inp d :
  reachable p ->
  In (CDestroyTexture d) (snd (frame inp p)) ->
  d = tex_id (depthTexture p) /\ (d < tex_id (depthTexture (fst (frame inp p))))%nat.
Proof.
  intros Hr Hd. destruct (reachable_gpu_inv _ Hr) as (_ & _ & _ & _ & Hlt).
  assert (Hl : In (CDestroyTexture d) (filter is_texture_lifecycle (snd (frame inp p))))
    by (apply filter_In; auto).
  destruct (resize_cond p (js_mul (inject_Z (in_clientWidth inp)) (devicePixelRatio p))
                          (js_mul (inject_Z (in_clientHeight inp)) (devicePixelRatio p))) eqn:E.
  - destruct (frame_branch_true inp p E) as (H1 & H2 & _).
    rewrite H1 in Hl. simpl in Hl.
    destruct Hl as [Hl | [Hl | []]]; [| discriminate]. injection Hl as <-.
    rewrite H2. simpl. split; [reflexivity | lia].
  - destruct (frame_branch_false inp p E) as (H1 & _).
    rewrite H1 in Hl. destruct Hl.
Qed.

(** Any number of later frames keep the state reachable and the depth
    texture handle from decreasing. *)
Lemma frames_reachable_mono inps : forall q,
  reachable q ->
  reachable (fold_left (fun q i => fst (frame i q)) inps q) /\
  (tex_id (depthTexture q) <=
   tex_id (depthTexture (fold_left (fun q i => fst (frame i q)) inps q)))%nat.
Proof.
  induction inps as [| i inps IH]; intros q Hq; simpl; [split; [exact Hq | lia] |].
  assert (Hq' : reachable (fst (frame i q))) by (apply reach_frame; exact Hq).
  destruct (IH (fst (frame i q)) Hq') as [Hr Hm].
  split; [exact Hr |].
  pose proof (frame_tex_id_mono q i Hq). lia.
Qed.

(** A frame destroys only the depth texture it found.  The render pass of
    that frame, and of every later frame, is attached to the depth texture
    that frame leaves, whose handle is strictly larger than the destroyed
    one: a destroyed depth texture is never rendered into again. *)
Theorem destroyed_depth_texture_never_attached_again p inp d :
  reachable p ->
  In (CDestroyTexture d) (snd (frame inp p)) ->
  d = tex_id (depthTexture p) /\
  (forall cbs cb color t,
     In (CSubmit cbs) (snd (frame inp p)) -> In cb cbs ->
     In (BeginRenderPass color (ViewOf t)) cb ->
     t = depthTexture (fst (frame inp p)) /\ (d < tex_id t)%nat) /\
  (forall inps inp' cbs cb color t,
     let q := fold_left (fun q i => fst (frame i q)) inps (fst (frame inp p)) in
     In (CSubmit cbs) (snd (frame inp' q)) -> In cb cbs ->
     In (BeginRenderPass color (ViewOf t)) cb ->
     t = depthTexture (fst (frame inp' q)) /\ (d < tex_id t)%nat).
Proof.
  intros Hr Hd.
  destruct (frame_destroys_current p inp d Hr Hd) as [Hid Hlt].
  split; [exact Hid | split].
  - intros cbs cb color t Hs Hcb Hb.
    pose proof (frame_pass_depth inp p cbs cb color (ViewOf t) Hs Hcb Hb) as Hv.
    injection Hv as ->. split; [reflexivity | exact Hlt].
  - intros inps inp' cbs cb color t q Hs Hcb Hb.
    pose proof (frame_pass_depth inp' q cbs cb color (ViewOf t) Hs Hcb Hb) as Hv.
    injection Hv as ->. split; [reflexivity |].
    assert (Hp1 : reachable (fst (frame inp p))) by (apply reach_frame; exact Hr).
    destruct (frames_reachable_mono inps (fst (frame inp p)) Hp1) as [Hq Hm].
    pose proof (frame_tex_id_mono q inp' Hq). subst q. lia.
Qed.

(** ** X6: the animation starts only once setup has completed *)

(** If setup completes, requestAnimationFrame was its last call and was
    called exactly once. If setup fails, requestAnimationFrame was never
    called, unless that call is itself the one that threw. *)
Theorem animation_requested_only_by_completed_setup h :
  let '(r, w) := setup_run h in
  match r with
  | inl _ => count_raf (w_trace w) = 0%nat \/ host_throws h CRequestAnimationFrame <> None
  | inr _ => exists rest, rev (w_trace w) = CRequestAnimationFrame :: rest /\
                          count_raf rest = 0%nat
  end.
Proof.
  destruct (setup_run h) as [r w] eqn:E.
  split_setup h E.
  all: injection E as <- <-; cbn.
  all: first [ left; reflexivity
             | right; congruence
             | eexists; split; reflexivity ].
Qed.

(** ** X7: the outcome of setup on a host whose calls all succeed *)

(** When no host call throws, setup completes exactly when WebGPU, an
    adapter, the canvas and its WebGPU context are all available;
    otherwise it fails with the TypeError of the first missing one. *)
Theorem setup_outcome_without_host_errors h :
  (forall c, host_throws h c = None) ->
  match fst (setup_run h) with
  | inr _ => gpu_present h = true /\ adapter_null h = false /\
             canvas_present h = true /\ context_present h = true
  | inl e =>
      e = (if negb (gpu_present h) then TypeError "navigator.gpu.requestAdapter"
           else if adapter_null h then TypeError "adapter.requestDevice"
           else if negb (canvas_present h) then TypeError "canvas.getContext"
           else TypeError "context.configure") /\
      (gpu_present h = false \/ adapter_null h = true \/
       canvas_present h = false \/ context_present h = false)
  end.
Proof.
  intros Hno.
  destruct (setup_run h) as [r w] eqn:E.
  split_setup h E.
  all: try (rewrite Hno in *; discriminate).
  all: injection E as <- <-; cbn.
  all: repeat match goal with Hb : ?f ?x = _ |- context [?f ?x] => rewrite Hb end.
  all: simpl; first [ tauto | split; [reflexivity | tauto] ].
Qed.


(** ** X8: the resize updates [aspect], which no later computation reads *)

(** A resizing frame stores the new canvas's aspect ratio in [aspect], but
    the matrix the frame writes into the uniform buffer is the projection
    computed once at setup times the view matrix of [Date.now()]: the new
    aspect ratio never reaches the GPU. *)
Theorem frame_draws_with_setup_projection p inp :
  let cw := js_mul (inject_Z (in_clientWidth inp)) (devicePixelRatio p) in
  let ch := js_mul (inject_Z (in_clientHeight inp)) (devicePixelRatio p) in
  let now := fdiv L (lit L (inject_Z (in_dateNow inp))) (lit L 1000%Q) in
  let view := mat4_rotate L
                (mat4_translate L (mat4_identity L) (lit L 0%Q, lit L 0%Q, lit L (-4)%Q))
                (fsin L now, fcos L now, lit L 0%Q) (lit L 1%Q) in
  let p' := fst (frame inp p) in
  (resize_cond p cw ch = true ->
     aspect p' = aspect_of F Mat L (canvas_width p') (canvas_height p')) /\
  projectionMatrix p' = projectionMatrix p /\
  f32_val (modelViewProjectionMatrix p') = mat4_multiply L (projectionMatrix p) view /\
  In (CWriteBuffer (buf_id (uniformBuffer p)) 0 (mat4_multiply L (projectionMatrix p) view)
        (f32_byteOffset (modelViewProjectionMatrix p))
        (byteLength (modelViewProjectionMatrix p)))
     (snd (frame inp p)).
Proof.
  cbv zeta.
  unfold frame, resize, set_rpd_and_mvp, getTransformationMatrix.
  destruct (resize_cond _ _ _) eqn:E; simpl.
  all: split; [intros Hc; first [reflexivity | discriminate] | split; [reflexivity | split; [reflexivity |]]].
  all: repeat (first [left; reflexivity | right]).
Qed.

(** ** X11: a setup that fails on a missing object allocates nothing *)

(** When no host call throws, a failed setup (a missing WebGPU, adapter,
    canvas or context) has created no buffer, pipeline, texture or bind
    group and has not requested an animation frame. *)
Theorem failed_setup_creates_no_gpu_resources h :
  (forall c, host_throws h c = None) ->
  let '(r, w) := setup_run h in
  forall e, r = inl e ->
  forall c, In c (w_trace w) ->
  match c with
  | CCreateBuffer _ _ | CCreateRenderPipeline _ | CCreateTexture _
  | CCreateBindGroup _ _ | CRequestAnimationFrame => False
  | _ => True
  end.
Proof.
  intros Hno.
  destruct (setup_run h) as [r w] eqn:E.
  split_setup h E.
  all: try (rewrite Hno in *; discriminate).
  all: injection E as <- <-; intros e0 He; try discriminate He.
  all: intros c Hc; simpl in Hc.
  all: repeat (destruct Hc as [<- | Hc]; [exact I |]); destruct Hc.
Qed.


(** ** X12: the first frame keeps the depth texture of setup *)

(** When the first frame sees the client size setup saw, and the scaled
    sizes (JS products with the device pixel ratio) are whole numbers in
    the attribute's range, the first frame neither destroys nor creates a
    depth texture: setup and frame compute the same rounded products, and
    the canvas stores them unchanged. *)
Theorem first_frame_keeps_setup_depth_texture h p w inp a b :
  setup_run h = (inr p, w) ->
  in_clientWidth inp = client_width h -> in_clientHeight inp = client_height h ->
  js_neq (js_mul (inject_Z (client_width h)) (window_devicePixelRatio h)) a = false ->
  js_neq (js_mul (inject_Z (client_height h)) (window_devicePixelRatio h)) b = false ->
  0 <= a <= 2147483647 -> 0 <= b <= 2147483647 ->
  filter is_texture_lifecycle (snd (frame inp p)) = [] /\
  depthTexture (fst (frame inp p)) = depthTexture p /\
  canvas_width (fst (frame inp p)) = a /\ canvas_height (fst (frame inp p)) = b.
Proof.
  intros H Hw Hh Ha Hb Ra Rb.
  apply setup_run_success in H. cbv zeta in H. destruct H as [_ [Hp _]].
  assert (Hc : resize_cond p (js_mul (inject_Z (in_clientWidth inp)) (devicePixelRatio p))
                             (js_mul (inject_Z (in_clientHeight inp)) (devicePixelRatio p))
               = false).
  { rewrite Hp. unfold resize_cond.
    cbn [canvas_width canvas_height devicePixelRatio depthTexture].
    rewrite Hw, Hh, (set_canvas_dim_int _ _ a Ha Ra), (set_canvas_dim_int _ _ b Hb Rb), Ha, Hb.
    reflexivity. }
  destruct (frame_branch_false inp p Hc) as (H1 & H2 & H3 & H4 & _).
  split; [exact H1 | split; [exact H2 |]].
  rewrite H3, H4, Hp. cbn [canvas_width canvas_height].
  split; apply set_canvas_dim_int; assumption.
Qed.

End Proofs.

(** * Concrete runs *)

Module Runs.

Local Abbreviation setupQ := (setup_run Q unit QLib cube36).
Local Abbreviation frameQ := (frame Q unit QLib cube36).
Local Abbreviation reachableQ := (reachable Q unit QLib cube36).

(** A placeholder for the bindings of a failed setup. *)
Definition no_prog : Prog Q unit := {|
  devicePixelRatio := 0; presentationFormat := ""; cubeShaderModule := 0;
  verticesBuffer := {| buf_id := 0; buf_size := 0; buf_usage := 0 |};
  renderPipeline := 0;
  depthTexture := {| tex_id := 0; tex_w := 0; tex_h := 0; tex_format := ""; tex_usage := 0 |};
  uniformBuffer := {| buf_id := 0; buf_size := 0; buf_usage := 0 |};
  uniformBindGroup := 0;
  renderPassDescriptor := {| rpd_color_view := None; rpd_depth_view := CurrentTextureView |};
  aspect := 0%Q; projectionMatrix := tt;
  modelViewProjectionMatrix := {| f32_length := 0; f32_byteOffset := 0; f32_val := tt |};
  canvas_width := 0; canvas_height := 0; next_id := 0 |}.

Definition prog_of (r : Exn unit + Prog Q unit) : Prog Q unit :=
  match r with inr p => p | inl _ => no_prog end.

(** The bindings after setup on a 300 x 150 canvas at device pixel ratio 1. *)
Definition ok_prog : Prog Q unit :=
  Eval vm_compute in prog_of (fst (setupQ (host_ok 300 150 1))).

Definition ok_world : World unit := Eval vm_compute in snd (setupQ (host_ok 300 150 1)).

Lemma ok_setup : setupQ (host_ok 300 150 1) = (inr ok_prog, ok_world).
Proof. vm_compute. reflexivity. Qed.

Lemma ok_reachable : reachableQ ok_prog.
Proof. exact (reach_setup Q unit QLib cube36 (host_ok 300 150 1) ok_prog ok_world ok_setup). Qed.

(** The same client size as at startup, and one wider by a pixel. *)
Definition inp_same : FrameInput := {| in_clientWidth := 300; in_clientHeight := 150; in_dateNow := 1000 |}.
Definition inp_wider : FrameInput := {| in_clientWidth := 301; in_clientHeight := 150; in_dateNow := 2000 |}.

(** The commands submitted by the frame on [inp_wider]. *)
Definition wider_cmds : list Cmd :=
  Eval vm_compute in
  match filter is_write_or_submit (snd (frameQ inp_wider ok_prog)) with
  | [_; CSubmit [cb]] => cb
  | _ => []
  end.

(** Setup on a 300 x 150 canvas at device pixel ratio 5/4. *)
Definition frac_prog : Prog Q unit :=
  Eval vm_compute in prog_of (fst (setupQ (host_ok 300 150 (5 # 4)))).

Lemma frac_setup : fst (setupQ (host_ok 300 150 (5 # 4))) = inr frac_prog.
Proof. vm_compute. reflexivity. Qed.

(** Setup on a 2 x 2 canvas at device pixel ratio 1/2. *)
Definition half_prog : Prog Q unit :=
  Eval vm_compute in prog_of (fst (setupQ (host_ok 2 2 (1 # 2)))).

Lemma half_setup : fst (setupQ (host_ok 2 2 (1 # 2))) = inr half_prog.
Proof. vm_compute. reflexivity. Qed.

(** The double nearest to 1.1, the device pixel ratio at a browser zoom
    of 110%. *)
Definition dpr_1_1 : Q := 2476979795053773 # 2251799813685248.

(** Setup on a 300 x 150 canvas at device pixel ratio [dpr_1_1]: the JS
    products are exactly 330 and 165, although the exact products are
    not whole numbers. *)
Definition zoom_prog : Prog Q unit :=
  Eval vm_compute in prog_of (fst (setupQ (host_ok 300 150 dpr_1_1))).

Definition zoom_world : World unit :=
  Eval vm_compute in snd (setupQ (host_ok 300 150 dpr_1_1)).

Lemma zoom_setup : setupQ (host_ok 300 150 dpr_1_1) = (inr zoom_prog, zoom_world).
Proof. vm_compute. reflexivity. Qed.

(** A page without [navigator.gpu]. *)
Definition host_no_gpu : Host unit := {|
  gpu_present := false; adapter_null := false; canvas_present := true;
  context_present := true; client_width := 300; client_height := 150;
  window_devicePixelRatio := 1; preferred_format := "bgra8unorm";
  host_throws := fun _ => None |}.

(** A host whose page has no canvas element. *)
Definition host_no_canvas : Host unit := {|
  gpu_present := true; adapter_null := false; canvas_present := false;
  context_present := false; client_width := 300; client_height := 150;
  window_devicePixelRatio := 1; preferred_format := "bgra8unorm";
  host_throws := fun _ => None |}.

(** A frame during which the canvas is not laid out. *)
Definition inp_hidden : FrameInput := {| in_clientWidth := 0; in_clientHeight := 150; in_dateNow := 3000 |}.

(** The depth texture created by the frame on [inp_wider]. *)
Definition dt7 : GPUTexture :=
  {| tex_id := 7; tex_w := 301; tex_h := 150; tex_format := "depth24plus";
     tex_usage := 16 |}.

Ltac in_list := vm_compute; repeat (first [left; reflexivity | right]).

(** ** Counterexamples and failing inputs *)

(** C3 counterexample: after setup on a 300 x 150 canvas, the frame that
    sees the canvas one pixel wider destroys the depth texture of setup
    and creates another one. *)
Lemma depth_texture_destroyed_and_recreated :
  setupQ (host_ok 300 150 1) = (inr ok_prog, ok_world) /\
  filter is_texture_lifecycle (snd (frameQ inp_wider ok_prog)) =
    [CDestroyTexture (tex_id (depthTexture ok_prog)); CCreateTexture dt7].
Proof. split; [exact ok_setup | vm_compute; reflexivity]. Qed.

(** C4 counterexample: at device pixel ratio 5/4 a 150-pixel client height
    scales to 187.5; the resize branch is taken and assigns 187.5 to
    [canvas.height], which stores 187, not the new size (and so the branch
    is taken again on every frame). *)
Lemma resize_stores_truncated_size :
  fst (setupQ (host_ok 300 150 (5 # 4))) = inr frac_prog /\
  canvas_height frac_prog = 187 /\
  resize_cond Q unit frac_prog (js_mul (inject_Z 300) (5 # 4)) (js_mul (inject_Z 150) (5 # 4))
    = true /\
  canvas_height (fst (frameQ inp_same frac_prog)) = 187 /\
  js_neq (js_mul (inject_Z 150) (5 # 4)) (canvas_height (fst (frameQ inp_same frac_prog)))
    = true.
Proof.
  split; [exact frac_setup |].
  repeat split; vm_compute; reflexivity.
Qed.

(** C6 (failing input): at device pixel ratio 1/2, after setup on a
    2 x 2 client area (canvas 1 x 1), a frame that sees a 1 x 1 client area
    has nonzero scaled sizes 1/2, takes the resize branch, stores 0 x 0 as
    the canvas size and creates a 0 x 0 depth texture. *)
Lemma frame_creates_zero_sized_depth_texture :
  fst (setupQ (host_ok 2 2 (1 # 2))) = inr half_prog /\
  canvas_width half_prog = 1 /\ canvas_height half_prog = 1 /\
  num_truthy (js_mul (inject_Z 1) (1 # 2)) = true /\
  filter is_texture_lifecycle
    (snd (frameQ {| in_clientWidth := 1; in_clientHeight := 1; in_dateNow := 0 |} half_prog)) =
    [CDestroyTexture 4;
     CCreateTexture {| tex_id := 7; tex_w := 0; tex_h := 0; tex_format := "depth24plus";
                       tex_usage := 16 |}].
Proof.
  split; [exact half_setup |].
  repeat split; vm_compute; reflexivity.
Qed.

(** ** Witnesses *)

Lemma frame_depth_attachment_matches_canvas_witness :
  reachableQ ok_prog /\
  exists t, ViewOf dt7 = ViewOf t /\ t = depthTexture (fst (frameQ inp_wider ok_prog)) /\
            tex_w t = canvas_width (fst (frameQ inp_wider ok_prog)) /\
            tex_h t = canvas_height (fst (frameQ inp_wider ok_prog)).
Proof.
  split; [exact ok_reachable |].
  apply (frame_depth_attachment_matches_canvas Q unit QLib cube36 ok_prog inp_wider
           [wider_cmds] wider_cmds (Some CurrentTextureView) (ViewOf dt7)).
  - exact ok_reachable.
  - in_list.
  - left. reflexivity.
  - in_list.
Defined.

Lemma handles_created_once_witness :
  setupQ (host_ok 300 150 1) = (inr ok_prog, ok_world) /\
  filter is_texture_lifecycle (w_trace ok_world) = [CCreateTexture (depthTexture ok_prog)].
Proof.
  split; [exact ok_setup |].
  exact (proj1 (proj2 (handles_created_once_depth_texture_recreated
                         Q unit QLib cube36 _ _ _ ok_setup))).
Defined.

Lemma setup_error_handling_witness :
  fst (setupQ host_no_gpu) = inl (TypeError "navigator.gpu.requestAdapter") /\
  w_trace (snd (setupQ host_no_gpu)) = [CConsoleError gpu_unsupported_msg].
Proof.
  pose proof (setup_error_handling Q unit QLib cube36 host_no_gpu) as H.
  vm_compute in H. destruct H as [_ [H _]].
  vm_compute. apply H; reflexivity.
Defined.

Lemma single_animation_callback_loop_witness :
  setupQ (host_ok 300 150 1) = (inr ok_prog, ok_world) /\
  List.length (l_pending (run Q unit QLib cube36 [inp_same; inp_wider; inp_same]
                            (start Q unit ok_prog ok_world))) = 1%nat.
Proof.
  split; [exact ok_setup |].
  exact (proj2 (proj2 (single_animation_callback_loop Q unit QLib cube36 _ _ _ ok_setup))
           [inp_same; inp_wider; inp_same]).
Defined.

Lemma vertex_buffer_written_once_witness :
  setupQ (host_ok 300 150 1) = (inr ok_prog, ok_world) /\
  filter (writes_buffer (buf_id (verticesBuffer ok_prog))) (w_trace ok_world) =
    [CF32Set (buf_id (verticesBuffer ok_prog))].
Proof.
  split; [exact ok_setup |].
  exact (proj1 (proj2 (vertex_buffer_written_once Q unit QLib cube36 _ _ _ ok_setup))).
Defined.

Lemma projection_computed_once_witness :
  setupQ (host_ok 300 150 1) = (inr ok_prog, ok_world) /\
  projectionMatrix (l_prog (run Q unit QLib cube36 [inp_wider; inp_same]
                              (start Q unit ok_prog ok_world))) = projectionMatrix ok_prog.
Proof.
  split; [exact ok_setup |].
  exact (proj2 (proj2 (proj2 (projection_computed_once Q unit QLib cube36 _ _ _ ok_setup)))
           [inp_wider; inp_same]).
Defined.

Lemma uniform_write_fills_buffer_witness :
  reachableQ ok_prog /\
  In (CWriteBuffer 5 0 tt 0 64) (snd (frameQ inp_same ok_prog)) /\
  0 + 64 = buf_size (uniformBuffer ok_prog).
Proof.
  assert (Hin : In (CWriteBuffer 5 0 tt 0 64) (snd (frameQ inp_same ok_prog))) by in_list.
  split; [exact ok_reachable | split; [exact Hin |]].
  exact (proj2 (proj2 (proj2 (proj2 (proj2 (proj2 (proj2
           (uniform_write_fills_buffer Q unit QLib cube36 ok_prog inp_same
              5%nat 0 tt 0 64 ok_reachable Hin)))))))).
Defined.


(** ** Witnesses of the further properties *)

Lemma frame_resize_settles_witness :
  ~ (inject_Z 300 * dpr_1_1 == inject_Z 330)%Q /\
  js_neq (js_mul (inject_Z (in_clientWidth inp_same)) (devicePixelRatio zoom_prog)) 330 = false /\
  js_neq (js_mul (inject_Z (in_clientHeight inp_same)) (devicePixelRatio zoom_prog)) 165 = false /\
  filter is_texture_lifecycle (snd (frameQ inp_same (fst (frameQ inp_same zoom_prog)))) = [].
Proof.
  assert (Ha : js_neq (js_mul (inject_Z (in_clientWidth inp_same)) (devicePixelRatio zoom_prog))
                 330 = false) by (vm_compute; reflexivity).
  assert (Hb : js_neq (js_mul (inject_Z (in_clientHeight inp_same)) (devicePixelRatio zoom_prog))
                 165 = false) by (vm_compute; reflexivity).
  split; [vm_compute; discriminate | split; [exact Ha | split; [exact Hb |]]].
  exact (proj1 (frame_resize_settles Q unit QLib cube36 zoom_prog inp_same 330 165
                  Ha Hb ltac:(lia) ltac:(lia))).
Defined.

Lemma frame_recreates_for_fractional_size_witness :
  (forall z, js_neq (js_mul (inject_Z (in_clientHeight inp_same)) (devicePixelRatio frac_prog)) z
             = true) /\
  filter is_texture_lifecycle (snd (frameQ inp_same frac_prog)) =
    [CDestroyTexture (tex_id (depthTexture frac_prog));
     CCreateTexture (depthTexture (fst (frameQ inp_same frac_prog)))].
Proof.
  assert (Hfr : forall z, js_neq (js_mul (inject_Z (in_clientHeight inp_same))
                                         (devicePixelRatio frac_prog)) z = true).
  { intros z.
    assert (E : js_mul (inject_Z (in_clientHeight inp_same)) (devicePixelRatio frac_prog)
                = Finite (6597069766656000 # 35184372088832)) by (vm_compute; reflexivity).
    rewrite E. unfold js_neq.
    destruct (Qeq_bool _ _) eqn:Eq; [| reflexivity].
    apply Qeq_bool_iff in Eq. unfold Qeq in Eq. simpl in Eq. lia. }
  split; [exact Hfr |].
  exact (proj1 (frame_recreates_for_fractional_size Q unit QLib cube36 frac_prog inp_same
                  ltac:(vm_compute; reflexivity) ltac:(vm_compute; reflexivity)
                  (or_intror Hfr))).
Defined.

Lemma frame_ignores_zero_client_size_witness :
  in_clientWidth inp_hidden = 0 /\
  filter is_texture_lifecycle (snd (frameQ inp_hidden ok_prog)) = [] /\
  canvas_width (fst (frameQ inp_hidden ok_prog)) = canvas_width ok_prog.
Proof.
  split; [reflexivity |].
  destruct (frame_ignores_zero_client_size Q unit QLib cube36 ok_prog inp_hidden
              (or_introl eq_refl)) as (H1 & _ & H3 & _).
  split; [exact H1 | exact H3].
Defined.

Lemma gpu_usage_flags_witness :
  reachableQ ok_prog /\
  Z.land (buf_usage (uniformBuffer ok_prog)) GPUBufferUsage_COPY_DST <> 0 /\
  tex_format dt7 = depthFormat.
Proof.
  assert (Hin : In (CCreateTexture dt7) (snd (frameQ inp_wider ok_prog))) by in_list.
  destruct (gpu_usage_flags Q unit QLib cube36 ok_prog inp_wider ok_reachable)
    as (_ & H2 & _ & H4).
  split; [exact ok_reachable | split; [exact H2 |]].
  exact (proj1 (H4 dt7 (or_intror Hin))).
Defined.

Lemma destroyed_depth_texture_never_attached_again_witness :
  reachableQ ok_prog /\
  In (CDestroyTexture 4) (snd (frameQ inp_wider ok_prog)) /\
  4%nat = tex_id (depthTexture ok_prog).
Proof.
  assert (Hin : In (CDestroyTexture 4) (snd (frameQ inp_wider ok_prog))) by in_list.
  split; [exact ok_reachable | split; [exact Hin |]].
  exact (proj1 (destroyed_depth_texture_never_attached_again Q unit QLib cube36
                  ok_prog inp_wider 4%nat ok_reachable Hin)).
Defined.

Lemma setup_outcome_without_host_errors_witness :
  (forall c, host_throws host_no_canvas c = None) /\
  fst (setupQ host_no_canvas) = inl (TypeError "canvas.getContext").
Proof.
  assert (Hno : forall c, host_throws host_no_canvas c = None) by reflexivity.
  split; [exact Hno |].
  pose proof (setup_outcome_without_host_errors Q unit QLib cube36 host_no_canvas Hno) as H.
  destruct (fst (setupQ host_no_canvas)) as [e | p].
  - destruct H as [-> _]. reflexivity.
  - destruct H as (_ & _ & Hc & _). discriminate Hc.
Defined.


Lemma frame_draws_with_setup_projection_witness :
  resize_cond Q unit ok_prog (js_mul (inject_Z (in_clientWidth inp_wider)) (devicePixelRatio ok_prog))
    (js_mul (inject_Z (in_clientHeight inp_wider)) (devicePixelRatio ok_prog)) = true /\
  aspect (fst (frameQ inp_wider ok_prog)) = (301 # 150)%Q /\
  projectionMatrix (fst (frameQ inp_wider ok_prog)) = projectionMatrix ok_prog.
Proof.
  assert (Hc : resize_cond Q unit ok_prog
                 (js_mul (inject_Z (in_clientWidth inp_wider)) (devicePixelRatio ok_prog))
                 (js_mul (inject_Z (in_clientHeight inp_wider)) (devicePixelRatio ok_prog)) = true)
    by (vm_compute; reflexivity).
  destruct (frame_draws_with_setup_projection Q unit QLib cube36 ok_prog inp_wider)
    as (Ha & Hp & _).
  split; [exact Hc | split; [| exact Hp]].
  rewrite (Ha Hc). vm_compute. reflexivity.
Defined.

Lemma failed_setup_creates_no_gpu_resources_witness :
  (forall c, host_throws host_no_canvas c = None) /\
  ~ In CRequestAnimationFrame (w_trace (snd (setupQ host_no_canvas))).
Proof.
  assert (Hno : forall c, host_throws host_no_canvas c = None) by reflexivity.
  split; [exact Hno |].
  pose proof (failed_setup_creates_no_gpu_resources Q unit QLib cube36 host_no_canvas Hno) as H.
  destruct (setupQ host_no_canvas) as [r w] eqn:E.
  assert (Hr : r = inl (TypeError "canvas.getContext"))
    by (vm_compute in E; injection E as <- _; reflexivity).
  simpl. intros Hin. exact (H _ Hr _ Hin).
Defined.


Lemma first_frame_keeps_setup_depth_texture_witness :
  setupQ (host_ok 300 150 dpr_1_1) = (inr zoom_prog, zoom_world) /\
  filter is_texture_lifecycle (snd (frameQ inp_same zoom_prog)) = [] /\
  canvas_width (fst (frameQ inp_same zoom_prog)) = 330.
Proof.
  destruct (first_frame_keeps_setup_depth_texture Q unit QLib cube36
              (host_ok 300 150 dpr_1_1) zoom_prog zoom_world inp_same 330 165
              zoom_setup eq_refl eq_refl
              ltac:(vm_compute; reflexivity) ltac:(vm_compute; reflexivity)
              ltac:(lia) ltac:(lia)) as (H1 & _ & H3 & _).
  split; [exact zoom_setup | split; [exact H1 | exact H3]].
Defined.

End Runs.
